(** * CorsIssueDetailsView: the affected-resources table of a CORS issue

    A shallow embedding of
    [front_end/panels/issues/CorsIssueDetailsView.ts] and the properties of
    its column dispatch, its two error-kind lookups and its [update] entry
    point.

    The view mutates DOM elements.  A [<tr>] under construction is threaded
    explicitly through the functions that append to it; the fields of the
    view object ([this]) are threaded by a small state-and-exception monad,
    which keeps the state reached at the moment an [Error] is thrown. *)

From Stdlib Require Import List String Ascii Bool Arith Lia.
Import ListNotations.
Local Open Scope string_scope.
Local Open Scope list_scope.

Set Implicit Arguments.

(** ** Strings as the code uses them *)

(** [String.prototype.includes]: does [searchString] occur somewhere in [s]? *)
Fixpoint includes (s searchString : string) : bool :=
  if String.prefix searchString s then true
  else match s with
       | EmptyString => false
       | String _ rest => includes rest searchString
       end.

(** The [a ?? b] operator on an optional string. *)
Definition nullish (a : option string) (b : string) : string :=
  match a with
  | Some x => x
  | None => b
  end.

(** ** Data model *)

(** [IssuesManager.CorsIssue.IssueCode].  The ten members the two switches
    handle, then the five members their [default] branches enumerate. *)
Inductive IssueCode : Type :=
| InvalidHeaderValues
| WildcardOriginNotAllowed
| PreflightResponseInvalid
| OriginMismatch
| AllowCredentialsRequired
| InsecurePrivateNetwork
| InsecurePrivateNetworkPreflight
| MethodDisallowedByPreflightResponse
| HeaderDisallowedByPreflightResponse
| RedirectContainsCredentials
| DisallowedByMode
| CorsDisabledScheme
| PreflightMissingAllowExternal
| PreflightInvalidAllowExternal
| InvalidResponse.

(** [Protocol.Network.CorsError] is a string enum: the code calls
    [corsError.includes('Preflight')] on its values and compares them with
    [===] in the switches. *)
Definition CorsError : Type := string.

(** Modelled from the spec: the declaration of [Protocol.Network.CorsError]
    is generated code that is not part of this file.  The spec speaks of an
    error kind's name and of an enum's textual form, so every member named
    by the view has its own name as value. *)
Module CorsErrorKind.
Definition InvalidAllowHeadersPreflightResponse : CorsError :=
  "InvalidAllowHeadersPreflightResponse".
Definition InvalidAllowMethodsPreflightResponse : CorsError :=
  "InvalidAllowMethodsPreflightResponse".
Definition PreflightMissingAllowOriginHeader : CorsError :=
  "PreflightMissingAllowOriginHeader".
Definition PreflightMultipleAllowOriginValues : CorsError :=
  "PreflightMultipleAllowOriginValues".
Definition PreflightInvalidAllowOriginValue : CorsError :=
  "PreflightInvalidAllowOriginValue".
Definition MissingAllowOriginHeader : CorsError :=
  "MissingAllowOriginHeader".
Definition MultipleAllowOriginValues : CorsError :=
  "MultipleAllowOriginValues".
Definition InvalidAllowOriginValue : CorsError :=
  "InvalidAllowOriginValue".
Definition PreflightInvalidStatus : CorsError :=
  "PreflightInvalidStatus".
Definition PreflightDisallowedRedirect : CorsError :=
  "PreflightDisallowedRedirect".
End CorsErrorKind.

(** [Protocol.Network.CorsErrorStatus] *)
Record CorsErrorStatus : Type := {
  corsError : CorsError;
  failedParameter : string
}.

(** [Protocol.Network.ClientSecurityState], the two fields the view reads. *)
Record ClientSecurityState : Type := {
  initiatorIsSecureContext : bool;
  initiatorIPAddressSpace : string
}.

(** [Protocol.Audits.AffectedRequest] *)
Record AffectedRequest : Type := {
  requestId : string;
  url : option string
}.

(** [Protocol.Audits.CorsIssueDetails]; an optional field is an [option]. *)
Record CorsIssueDetails : Type := {
  request : AffectedRequest;
  isWarning : bool;
  corsErrorStatus : CorsErrorStatus;
  initiatorOrigin : option string;
  resourceIPAddressSpace : option string;
  clientSecurityState : option ClientSecurityState
}.

(** [IssuesManager.CorsIssue.CorsIssue], seen through [code()] and
    [details()]. *)
Record CorsIssue : Type := {
  code : IssueCode;
  details : CorsIssueDetails
}.

(** [AggregatedIssue], seen through [getCorsIssues()]: a [Set] iterates in
    insertion order, so it is the list of its members in that order. *)
Record AggregatedIssue : Type := {
  getCorsIssues : list CorsIssue
}.

(** *** The rendered table *)

(** The children a table row receives. *)
Inductive Cell : Type :=
| ColumnTitle (title : string)
| RequestCell (req : AffectedRequest) (linkToPreflight : bool)
| StatusCell (className : string) (textContent : string)
| IssueDetailCell (text : string) (additionalClass : option string).

(** A [<tr>] element: its class list and its children, oldest first. *)
Record Tr : Type := {
  classList : list string;
  children : list Cell
}.

(** The fields of [this] the view reads and writes: the aggregated issue,
    the children of the [affectedResources] container, and the counts handed
    to [updateAffectedResourceCount], oldest first. *)
Record View : Type := {
  issue : AggregatedIssue;
  affectedResources : list Tr;
  reportedCounts : list nat
}.

(** ** Exceptions and the view monad *)

Inductive Exn : Type :=
| Error (message : string).

(** A computation on a local value either yields a result or throws. *)
Definition Try (A : Type) : Type := (Exn + A)%type.

Definition try_bind {A B : Type} (c : Try A) (k : A -> Try B) : Try B :=
  match c with
  | inl e => inl e
  | inr a => k a
  end.

(** A method of the view ends by returning or by throwing; in both cases
    the mutations made so far stay. *)
Inductive Outcome (A : Type) : Type :=
| Returned (a : A) (this : View)
| Thrown (e : Exn) (this : View).

Arguments Returned {A} a this.
Arguments Thrown {A} e this.

Definition M (A : Type) : Type := View -> Outcome A.

Definition ret {A : Type} (a : A) : M A := fun this => Returned a this.

Definition bind {A B : Type} (m : M A) (k : A -> M B) : M B :=
  fun this =>
    match m this with
    | Returned a this' => k a this'
    | Thrown e this' => Thrown e this'
    end.

Definition lift {A : Type} (c : Try A) : M A :=
  fun this =>
    match c with
    | inl e => Thrown e this
    | inr a => Returned a this
    end.

Declare Scope view_scope.
Delimit Scope view_scope with view.
Declare Scope try_scope.
Delimit Scope try_scope with try.

Notation "x <- c ;; k" := (bind c (fun x => k))
  (at level 61, c at next level, right associativity) : view_scope.
Notation "c ;; k" := (bind c (fun _ => k))
  (at level 61, right associativity) : view_scope.
Notation "x <- c ;; k" := (try_bind c (fun x => k))
  (at level 61, c at next level, right associativity) : try_scope.

(** The view an outcome leaves behind. *)
Definition view_of {A : Type} (o : Outcome A) : View :=
  match o with
  | Returned _ this => this
  | Thrown _ this => this
  end.

(** [for (const x of xs) body], with the loop-carried local [s]. *)
Fixpoint for_of {A S : Type} (xs : list A) (body : A -> S -> M S) (s : S)
  : M S :=
  match xs with
  | [] => ret s
  | x :: rest => bind (body x s) (fun s' => for_of rest body s')
  end.

(** ** Collaborators of the view *)

(** The [UIStrings] table of the file (the entries the table uses). *)
Module UIStrings.
Definition warning := "warning".
Definition blocked := "blocked".
Definition status := "Status".
Definition request := "Request".
Definition resourceAddressSpace := "Resource Address".
Definition initiatorAddressSpace := "Initiator Address".
Definition secure := "secure".
Definition insecure := "insecure".
Definition initiatorContext := "Initiator Context".
Definition preflightRequestIfProblematic :=
  "Preflight Request (if problematic)".
Definition preflightRequest := "Preflight Request".
Definition header := "Header".
Definition problem := "Problem".
Definition invalidValue := "Invalid Value (if available)".
Definition problemMissingHeader := "Missing Header".
Definition problemMultipleValues := "Multiple Values".
Definition problemInvalidValue := "Invalid Value".
Definition preflightDisallowedRedirect :=
  "Response to preflight was a redirect".
Definition preflightInvalidStatus :=
  "HTTP status of preflight request didn't indicate success".
Definition allowedOrigin := "Allowed Origin (from header)".
Definition allowCredentialsValueFromHeader :=
  "`Access-Control-Allow-Credentials` Header Value".
Definition disallowedRequestMethod := "Disallowed Request Method".
Definition disallowedRequestHeader := "Disallowed Request Header".
End UIStrings.

(** Modelled from the spec: the localized-string provider
    ([i18n.getLocalizedString], not part of this file) is a lookup from a
    registered string to its text; in the source locale that text is the
    registered string. *)
Definition i18nString (s : string) : string := s.

(** [document.createElement('tr')] *)
Definition createElement_tr : Tr := {| classList := []; children := [] |}.

(** [element.classList.add(c)] *)
Definition classList_add (element : Tr) (c : string) : Tr :=
  {| classList := classList element ++ [c]; children := children element |}.

(** [element.appendChild(cell)] *)
Definition appendChild (element : Tr) (cell : Cell) : Tr :=
  {| classList := classList element; children := children element ++ [cell] |}.

(** Modelled from the spec: [appendColumnTitle] belongs to the base class
    [AffectedResourcesView], which is not part of this file; the spec's
    [appendColumnHeader(row, title)] appends one column title to the row. *)
Definition appendColumnTitle (header : Tr) (title : string) : Tr :=
  appendChild header (ColumnTitle title).

(** Modelled from the spec: [appendIssueDetailCell] belongs to the absent
    base class; the spec's [appendCell(row, text, styleClass?)] appends one
    text cell, with an optional style class, to the row. *)
Definition appendIssueDetailCell (element : Tr) (text : string)
    (additionalClass : option string) : Tr :=
  appendChild element (IssueDetailCell text additionalClass).

(** Modelled from the spec: [createRequestCell] belongs to the absent base
    class; the spec's [appendRequestLinkCell(request, {linkToPreflight?})]
    makes one cell that links the request, or its preflight request.  An
    omitted options argument is [false]. *)
Definition createRequestCell (req : AffectedRequest)
    (linkToPreflight : bool) : Cell :=
  RequestCell req linkToPreflight.

(** [this.affectedResources.appendChild(row)] *)
Definition affectedResources_appendChild (row : Tr) : M unit :=
  fun this =>
    Returned tt {| issue := issue this;
                   affectedResources := affectedResources this ++ [row];
                   reportedCounts := reportedCounts this |}.

(** Modelled from the spec: [updateAffectedResourceCount] belongs to the
    absent base class; the spec's [reportRowCount(n)] reports the count to
    the external counter. *)
Definition updateAffectedResourceCount (count : nat) : M unit :=
  fun this =>
    Returned tt {| issue := issue this;
                   affectedResources := affectedResources this;
                   reportedCounts := reportedCounts this ++ [count] |}.

(** Modelled from the spec: [clear] belongs to the absent base class; the
    spec's [clear()] removes the prior rendered content of the container. *)
Definition clear : M unit :=
  fun this =>
    Returned tt {| issue := issue this;
                   affectedResources := [];
                   reportedCounts := reportedCounts this |}.

(** [Platform.assertUnhandled] is a helper of the repository that is not
    part of this file.  Both call sites pass the union of the members left
    to the [default] branch as an explicit type argument; the one in
    [appendDetail] is followed by [break], and both fall through to the
    [appendChild] after the switch, while the fatal paths of the file are
    written [throw new Error].  The helper is therefore taken as the
    type-level exhaustiveness check its call sites show: at run time it
    returns its argument. *)
Definition assertUnhandled {T : Type} (caseVariable : T) : Try T :=
  inr caseVariable.

(** ** The view *)

(** [appendStatus] *)
Definition appendStatus (element : Tr) (isWarning : bool) : Tr :=
  let status :=
    if isWarning
    then StatusCell "affected-resource-report-only-status"
                    (i18nString UIStrings.warning)
    else StatusCell "affected-resource-blocked-status"
                    (i18nString UIStrings.blocked) in
  appendChild element status.

(** [appendSecureContextCell]; [undefined] is [None]. *)
Definition appendSecureContextCell (element : Tr)
    (isSecureContext : option bool) : Tr :=
  match isSecureContext with
  | None => appendIssueDetailCell element "" None
  | Some b =>
      appendIssueDetailCell element
        (if b then i18nString UIStrings.secure
         else i18nString UIStrings.insecure) None
  end.

(** [case a: case b: ...] with one body: is [x] one of the labels? *)
Definition case_of (x : string) (labels : list string) : bool :=
  existsb (String.eqb x) labels.

(** [getHeaderFromError] *)
Definition getHeaderFromError (corsError : CorsError) : Try string :=
  if case_of corsError [CorsErrorKind.InvalidAllowHeadersPreflightResponse]
  then inr "Access-Control-Allow-Headers"
  else if case_of corsError [CorsErrorKind.InvalidAllowMethodsPreflightResponse]
  then inr "Access-Control-Allow-Methods"
  else if case_of corsError
            [CorsErrorKind.PreflightMissingAllowOriginHeader;
             CorsErrorKind.PreflightMultipleAllowOriginValues;
             CorsErrorKind.PreflightInvalidAllowOriginValue;
             CorsErrorKind.MissingAllowOriginHeader;
             CorsErrorKind.MultipleAllowOriginValues;
             CorsErrorKind.InvalidAllowOriginValue]
  then inr "Access-Control-Allow-Origin"
  else inl (Error "Invalid Argument").

(** [getProblemFromError]; its parameter, which the source names
    [corsError] as well, is the error status [status] here. *)
Definition getProblemFromError (status : CorsErrorStatus) : Try string :=
  let kind := corsError status in
  if case_of kind
       [CorsErrorKind.InvalidAllowHeadersPreflightResponse;
        CorsErrorKind.InvalidAllowMethodsPreflightResponse;
        CorsErrorKind.PreflightInvalidAllowOriginValue;
        CorsErrorKind.InvalidAllowOriginValue]
  then inr (i18nString UIStrings.problemInvalidValue)
  else if case_of kind
            [CorsErrorKind.PreflightMultipleAllowOriginValues;
             CorsErrorKind.MultipleAllowOriginValues]
  then inr (i18nString UIStrings.problemMultipleValues)
  else if case_of kind
            [CorsErrorKind.MissingAllowOriginHeader;
             CorsErrorKind.PreflightMissingAllowOriginHeader]
  then inr (i18nString UIStrings.problemMissingHeader)
  else if case_of kind [CorsErrorKind.PreflightInvalidStatus]
  then inr (i18nString UIStrings.preflightInvalidStatus)
  else if case_of kind [CorsErrorKind.PreflightDisallowedRedirect]
  then inr (i18nString UIStrings.preflightDisallowedRedirect)
  else inl (Error "Invalid Argument").

(** The cell the four [corsError.includes('Preflight')] branches append. *)
Definition appendPreflightIfProblematic (element : Tr)
    (details : CorsIssueDetails) : Tr :=
  if includes (corsError (corsErrorStatus details)) "Preflight"
  then appendChild element (createRequestCell (request details) true)
  else appendIssueDetailCell element "" None.

(** [appendDetail], up to the switch's end: the row element it builds. *)
Definition appendDetail_element (issueCode : IssueCode) (issue : CorsIssue)
  : Try Tr :=
  let element := createElement_tr in
  let element := classList_add element "affected-resource-directive" in
  let details := details issue in
  let element := appendChild element (createRequestCell (request details) false) in
  let element := appendStatus element (isWarning details) in
  let status := corsErrorStatus details in
  (match issueCode with
   | InvalidHeaderValues =>
       let element := appendPreflightIfProblematic element details in
       headerName <- getHeaderFromError (corsError status) ;;
       let element :=
         appendIssueDetailCell element headerName (Some "code-example") in
       problem <- getProblemFromError status ;;
       let element := appendIssueDetailCell element problem None in
       inr (appendIssueDetailCell element (failedParameter status)
              (Some "code-example"))
   | WildcardOriginNotAllowed =>
       inr (appendPreflightIfProblematic element details)
   | PreflightResponseInvalid =>
       let element :=
         appendChild element (createRequestCell (request details) true) in
       problem <- getProblemFromError status ;;
       inr (appendIssueDetailCell element problem None)
   | OriginMismatch =>
       let element := appendPreflightIfProblematic element details in
       let element :=
         appendIssueDetailCell element (nullish (initiatorOrigin details) "")
           (Some "code-example") in
       inr (appendIssueDetailCell element (failedParameter status)
              (Some "code-example"))
   | AllowCredentialsRequired =>
       let element := appendPreflightIfProblematic element details in
       inr (appendIssueDetailCell element (failedParameter status)
              (Some "code-example"))
   | InsecurePrivateNetwork
   | InsecurePrivateNetworkPreflight =>
       let element :=
         appendIssueDetailCell element
           (nullish (resourceIPAddressSpace details) "") None in
       let element :=
         appendIssueDetailCell element
           (nullish (option_map initiatorIPAddressSpace
                       (clientSecurityState details)) "") None in
       inr (appendSecureContextCell element
              (option_map initiatorIsSecureContext
                 (clientSecurityState details)))
   | MethodDisallowedByPreflightResponse =>
       let element :=
         appendChild element (createRequestCell (request details) true) in
       inr (appendIssueDetailCell element (failedParameter status)
              (Some "code-example"))
   | HeaderDisallowedByPreflightResponse =>
       let element :=
         appendChild element (createRequestCell (request details) true) in
       inr (appendIssueDetailCell element (failedParameter status)
              (Some "code-example"))
   | RedirectContainsCredentials =>
       inr element
   | DisallowedByMode
   | CorsDisabledScheme
   | PreflightMissingAllowExternal
   | PreflightInvalidAllowExternal
   | InvalidResponse =>
       _ <- assertUnhandled issueCode ;;
       inr element
   end)%try.

(** [appendDetail]: build the row, then hand it to the container. *)
Definition appendDetail (issueCode : IssueCode) (issue : CorsIssue) : M unit :=
  (element <- lift (appendDetail_element issueCode issue) ;;
   affectedResources_appendChild element)%view.

(** [appendDetails], up to the switch's end: the header element it builds. *)
Definition appendDetails_header (issueCode : IssueCode) : Try Tr :=
  let header := createElement_tr in
  let header := appendColumnTitle header (i18nString UIStrings.request) in
  let header := appendColumnTitle header (i18nString UIStrings.status) in
  (match issueCode with
   | InvalidHeaderValues =>
       let header := appendColumnTitle header
                       (i18nString UIStrings.preflightRequestIfProblematic) in
       let header := appendColumnTitle header (i18nString UIStrings.header) in
       let header := appendColumnTitle header (i18nString UIStrings.problem) in
       inr (appendColumnTitle header (i18nString UIStrings.invalidValue))
   | WildcardOriginNotAllowed =>
       inr (appendColumnTitle header
              (i18nString UIStrings.preflightRequestIfProblematic))
   | PreflightResponseInvalid =>
       let header := appendColumnTitle header
                       (i18nString UIStrings.preflightRequest) in
       inr (appendColumnTitle header (i18nString UIStrings.problem))
   | OriginMismatch =>
       let header := appendColumnTitle header
                       (i18nString UIStrings.preflightRequestIfProblematic) in
       let header := appendColumnTitle header
                       (i18nString UIStrings.initiatorContext) in
       inr (appendColumnTitle header (i18nString UIStrings.allowedOrigin))
   | AllowCredentialsRequired =>
       let header := appendColumnTitle header
                       (i18nString UIStrings.preflightRequestIfProblematic) in
       inr (appendColumnTitle header
              (i18nString UIStrings.allowCredentialsValueFromHeader))
   | InsecurePrivateNetwork
   | InsecurePrivateNetworkPreflight =>
       let header := appendColumnTitle header
                       (i18nString UIStrings.resourceAddressSpace) in
       let header := appendColumnTitle header
                       (i18nString UIStrings.initiatorAddressSpace) in
       inr (appendColumnTitle header (i18nString UIStrings.initiatorContext))
   | MethodDisallowedByPreflightResponse =>
       let header := appendColumnTitle header
                       (i18nString UIStrings.preflightRequest) in
       inr (appendColumnTitle header
              (i18nString UIStrings.disallowedRequestMethod))
   | HeaderDisallowedByPreflightResponse =>
       let header := appendColumnTitle header
                       (i18nString UIStrings.preflightRequest) in
       inr (appendColumnTitle header
              (i18nString UIStrings.disallowedRequestHeader))
   | RedirectContainsCredentials =>
       inr header
   | DisallowedByMode
   | CorsDisabledScheme
   | PreflightMissingAllowExternal
   | PreflightInvalidAllowExternal
   | InvalidResponse =>
       _ <- assertUnhandled issueCode ;;
       inr header
   end)%try.

(** [appendDetails]: header row, one data row per issue, then the count. *)
Definition appendDetails (issueCode : IssueCode) (issues : list CorsIssue)
  : M unit :=
  (header <- lift (appendDetails_header issueCode) ;;
   affectedResources_appendChild header ;;
   count <- for_of issues
              (fun issue count =>
                 let count := S count in
                 appendDetail issueCode issue ;;
                 ret count)
              0 ;;
   updateAffectedResourceCount count)%view.

(** [update]: [issues.size > 0] is a non-empty list, and
    [issues.values().next().value] is its head. *)
Definition update : M unit :=
  (clear ;;
   fun this =>
     let issues := getCorsIssues (issue this) in
     match issues with
     | first :: _ => appendDetails (code first) issues this
     | [] => updateAffectedResourceCount 0 this
     end)%view.

(** ** Vocabulary of the properties *)

(** [needle] occurs in [s]: some text, then [needle], then some text. *)
Definition contains_substring (s needle : string) : Prop :=
  exists before after : string, s = (before ++ needle ++ after)%string.

(** The ten subtypes with a [case] of their own in both switches. *)
Definition handled_codes : list IssueCode :=
  [InvalidHeaderValues; WildcardOriginNotAllowed; PreflightResponseInvalid;
   OriginMismatch; AllowCredentialsRequired; InsecurePrivateNetwork;
   InsecurePrivateNetworkPreflight; MethodDisallowedByPreflightResponse;
   HeaderDisallowedByPreflightResponse; RedirectContainsCredentials].

(** The five subtypes left to the [default] branches. *)
Definition unhandled_codes : list IssueCode :=
  [DisallowedByMode; CorsDisabledScheme; PreflightMissingAllowExternal;
   PreflightInvalidAllowExternal; InvalidResponse].

(** The subtypes whose third column is the preflight request, shown only
    when it is the problematic one. *)
Definition preflight_if_problematic_codes : list IssueCode :=
  [InvalidHeaderValues; WildcardOriginNotAllowed; OriginMismatch;
   AllowCredentialsRequired].

(** The error kinds with a [case] in [getHeaderFromError]. *)
Definition header_error_kinds : list CorsError :=
  [CorsErrorKind.InvalidAllowHeadersPreflightResponse;
   CorsErrorKind.InvalidAllowMethodsPreflightResponse;
   CorsErrorKind.PreflightMissingAllowOriginHeader;
   CorsErrorKind.PreflightMultipleAllowOriginValues;
   CorsErrorKind.PreflightInvalidAllowOriginValue;
   CorsErrorKind.MissingAllowOriginHeader;
   CorsErrorKind.MultipleAllowOriginValues;
   CorsErrorKind.InvalidAllowOriginValue].

(** The error kinds with a [case] in [getProblemFromError]. *)
Definition problem_error_kinds : list CorsError :=
  header_error_kinds ++
  [CorsErrorKind.PreflightInvalidStatus;
   CorsErrorKind.PreflightDisallowedRedirect].

(** The phrases [getProblemFromError] can return. *)
Definition problem_phrases : list string :=
  [UIStrings.problemInvalidValue; UIStrings.problemMultipleValues;
   UIStrings.problemMissingHeader; UIStrings.preflightInvalidStatus;
   UIStrings.preflightDisallowedRedirect].

(** Is the child a column title? *)
Definition is_column_title (c : Cell) : bool :=
  match c with
  | ColumnTitle _ => true
  | _ => false
  end.

(** A header row holds column titles only and carries no class; a data row
    carries the class [appendDetail] gives it. *)
Definition is_header_row (row : Tr) : bool :=
  forallb is_column_title (children row) &&
  match classList row with [] => true | _ => false end.

Definition is_data_row (row : Tr) : bool :=
  existsb (String.eqb "affected-resource-directive") (classList row).

(** Do the lookups that [appendDetail] makes for this subtype succeed on
    this record? *)
Definition lookups_succeed (issueCode : IssueCode) (issue : CorsIssue)
  : bool :=
  let kind := corsError (corsErrorStatus (details issue)) in
  match issueCode with
  | InvalidHeaderValues => case_of kind header_error_kinds
  | PreflightResponseInvalid => case_of kind problem_error_kinds
  | _ => true
  end.

(** The record with its subtype replaced. *)
Definition with_code (c : IssueCode) (issue : CorsIssue) : CorsIssue :=
  {| code := c; details := details issue |}.

(** The view after [clear]. *)
Definition cleared (this : View) : View :=
  {| issue := issue this; affectedResources := [];
     reportedCounts := reportedCounts this |}.

(** What a render of [n] records is to leave behind: the count [n] reported
    after the earlier counts, and a container of one header row followed by
    [n] data rows. *)
Definition reports_and_appends (before after : View) (n : nat) : Prop :=
  reportedCounts after = reportedCounts before ++ [n] /\
  exists header rows,
    affectedResources after = header :: rows /\
    is_header_row header = true /\
    List.length rows = n /\
    forallb is_data_row rows = true.

(** The loop of [appendDetails], as the source writes its body. *)
Definition appendDetails_loop (issueCode : IssueCode)
    (issues : list CorsIssue) (count : nat) : M nat :=
  for_of issues
    (fun issue count =>
       let count := S count in
       (appendDetail issueCode issue ;; ret count)%view)
    count.

(** *** Sample records *)

(** A record of subtype [c] with error kind [kind]. *)
Definition sample_request : AffectedRequest :=
  {| requestId := "1000.1"; url := Some "https://example.test/data" |}.

Definition sample_issue (c : IssueCode) (kind : CorsError)
    (state : option ClientSecurityState) : CorsIssue :=
  {| code := c;
     details := {| request := sample_request;
                   isWarning := false;
                   corsErrorStatus := {| corsError := kind;
                                         failedParameter := "*" |};
                   initiatorOrigin := Some "https://initiator.test";
                   resourceIPAddressSpace := Some "Private";
                   clientSecurityState := state |} |}.

(** A record filed under InvalidHeaderValues whose error kind the header
    lookup does not know, and a fresh view that holds only this record. *)
Definition unmapped_issue : CorsIssue :=
  sample_issue InvalidHeaderValues CorsErrorKind.PreflightInvalidStatus None.


(** Two records of one aggregated OriginMismatch issue, shown in a view
    that still holds a row and a count from an earlier render. *)
Definition mismatch_issues : list CorsIssue :=
  [sample_issue OriginMismatch "PreflightAllowOriginMismatch" None;
   sample_issue OriginMismatch "AllowOriginMismatch" None].

Definition mismatch_view : View :=
  {| issue := {| getCorsIssues := mismatch_issues |};
     affectedResources := [createElement_tr];
     reportedCounts := [7] |}.

(** *** Rendering as a function *)

(** The view with [rows] appended to its container. *)
Definition with_rows (this : View) (rows : list Tr) : View :=
  {| issue := issue this;
     affectedResources := affectedResources this ++ rows;
     reportedCounts := reportedCounts this |}.

(** The view with one more count reported. *)
Definition with_count (this : View) (count : nat) : View :=
  {| issue := issue this;
     affectedResources := affectedResources this;
     reportedCounts := reportedCounts this ++ [count] |}.

(** The rows of the records in iteration order, up to the first record
    whose row cannot be built, and the exception that record raises. *)
Fixpoint rows_until_throw (issueCode : IssueCode) (issues : list CorsIssue)
  : list Tr * option Exn :=
  match issues with
  | [] => ([], None)
  | i :: rest =>
      match appendDetail_element issueCode i with
      | inl e => ([], Some e)
      | inr row =>
          let (rows, thrown) := rows_until_throw issueCode rest in
          (row :: rows, thrown)
      end
  end.

(** What a render leaves behind, as a function of the aggregated issue and
    of the counts reported before. *)
Definition render_outcome (a : AggregatedIssue) (counts : list nat)
  : Outcome unit :=
  match getCorsIssues a with
  | [] =>
      Returned tt {| issue := a; affectedResources := [];
                     reportedCounts := counts ++ [0] |}
  | first :: _ =>
      match appendDetails_header (code first) with
      | inl e =>
          Thrown e {| issue := a; affectedResources := [];
                      reportedCounts := counts |}
      | inr header =>
          match rows_until_throw (code first) (getCorsIssues a) with
          | (rows, None) =>
              Returned tt
                {| issue := a; affectedResources := header :: rows;
                   reportedCounts :=
                     counts ++ [List.length (getCorsIssues a)] |}
          | (rows, Some e) =>
              Thrown e {| issue := a; affectedResources := header :: rows;
                          reportedCounts := counts |}
          end
      end
  end.

(** The handled subtypes whose rows need no lookup. *)
Definition codes_without_lookup : list IssueCode :=
  [WildcardOriginNotAllowed; OriginMismatch; AllowCredentialsRequired;
   InsecurePrivateNetwork; InsecurePrivateNetworkPreflight;
   MethodDisallowedByPreflightResponse; HeaderDisallowedByPreflightResponse;
   RedirectContainsCredentials].

(** The subtypes whose rows end with the failed parameter. *)
Definition failed_parameter_codes : list IssueCode :=
  [InvalidHeaderValues; OriginMismatch; AllowCredentialsRequired;
   MethodDisallowedByPreflightResponse; HeaderDisallowedByPreflightResponse].

(** The subtypes whose rows always link the preflight request. *)
Definition preflight_always_codes : list IssueCode :=
  [PreflightResponseInvalid; MethodDisallowedByPreflightResponse;
   HeaderDisallowedByPreflightResponse].

(** A private-network record that carries none of its optional fields. *)
Definition bare_private_network_issue : CorsIssue :=
  {| code := InsecurePrivateNetwork;
     details := {| request := sample_request;
                   isWarning := true;
                   corsErrorStatus :=
                     {| corsError := "InsecurePrivateNetwork";
                        failedParameter := "" |};
                   initiatorOrigin := None;
                   resourceIPAddressSpace := None;
                   clientSecurityState := None |} |}.

(** Three InvalidHeaderValues records; the lookup fails on the third. *)
Definition header_issues_before : list CorsIssue :=
  [sample_issue InvalidHeaderValues
     CorsErrorKind.MissingAllowOriginHeader None;
   sample_issue InvalidHeaderValues
     CorsErrorKind.InvalidAllowHeadersPreflightResponse None].

Definition failing_view : View :=
  {| issue := {| getCorsIssues :=
                   header_issues_before ++ unmapped_issue :: [unmapped_issue] |};
     affectedResources := [createElement_tr];
     reportedCounts := [3] |}.


(** A record filed under a subtype the switches leave to [default], and a
    fresh view that holds only this record. *)
Definition disallowed_issue : CorsIssue :=
  sample_issue DisallowedByMode "DisallowedByMode" None.

Definition disallowed_view : View :=
  {| issue := {| getCorsIssues := [disallowed_issue] |};
     affectedResources := [];
     reportedCounts := [] |}.

(** ** Strings *)

Lemma prefix_append (p s : string) :
  String.prefix p s = true <-> exists rest, s = (p ++ rest)%string.
Proof.
  revert s; induction p as [|a p IH]; intros s; simpl.
  - destruct s; split; eauto.
  - destruct s as [|b s]; simpl.
    + split; [discriminate | intros [rest H]; discriminate].
    + destruct (ascii_dec a b) as [Heq|Hne].
      * subst b. rewrite IH. split; intros [rest H]; exists rest.
        -- now subst.
        -- now inversion H.
      * split; [discriminate | intros [rest H]; inversion H; congruence].
Qed.

Lemma includes_unfold (s needle : string) :
  includes s needle =
  String.prefix needle s ||
  match s with
  | EmptyString => false
  | String _ rest => includes rest needle
  end.
Proof. destruct s; reflexivity. Qed.

(** [includes] decides [contains_substring]. *)
Lemma includes_spec (s needle : string) :
  includes s needle = true <-> contains_substring s needle.
Proof.
  unfold contains_substring.
  induction s as [|a s IH]; rewrite includes_unfold, orb_true_iff,
    prefix_append.
  - split.
    + intros [[rest H] | H]; [exists "", rest; exact H | discriminate].
    + intros [before [after H]]. left.
      destruct before; [|discriminate]. exists after. exact H.
  - rewrite IH. split.
    + intros [[rest H] | [before [after H]]].
      * exists "", rest. exact H.
      * exists (String a before), after. simpl. now rewrite H.
    + intros [before [after H]]. destruct before as [|b before].
      * left. exists after. exact H.
      * right. simpl in H. inversion H. eauto.
Qed.

(** ** The two lookups *)

Lemma case_of_In (x : string) (labels : list string) :
  case_of x labels = true <-> In x labels.
Proof.
  unfold case_of. rewrite existsb_exists. split.
  - intros [y [Hin Heq]]. apply String.eqb_eq in Heq. now subst.
  - intros Hin. exists x. split; [exact Hin | apply String.eqb_refl].
Qed.

(** Decide every [===] comparison of a switch on the error kind [k]. *)
Ltac switch_on k :=
  repeat match goal with
         | |- context [String.eqb k ?label] =>
             destruct (String.eqb_spec k label); try subst k
         end.

Lemma getHeaderFromError_some (k : CorsError) :
  In k header_error_kinds <-> exists h, getHeaderFromError k = inr h.
Proof.
  rewrite <- case_of_In.
  unfold getHeaderFromError, header_error_kinds, case_of, existsb.
  switch_on k; simpl; split; intros H;
    try reflexivity; try discriminate; eauto; destruct H; discriminate.
Qed.

Lemma getHeaderFromError_throws (k : CorsError) :
  ~ In k header_error_kinds <->
  getHeaderFromError k = inl (Error "Invalid Argument").
Proof.
  rewrite <- case_of_In.
  unfold getHeaderFromError, header_error_kinds, case_of, existsb.
  switch_on k; simpl; split; intros H;
    try reflexivity; try discriminate; try congruence.
Qed.

Lemma getProblemFromError_some (status : CorsErrorStatus) :
  In (corsError status) problem_error_kinds <->
  exists p, getProblemFromError status = inr p /\ In p problem_phrases.
Proof.
  rewrite <- case_of_In. destruct status as [k fp]; simpl.
  unfold getProblemFromError, problem_error_kinds, header_error_kinds,
    case_of, existsb; simpl.
  switch_on k; simpl; split; intros H;
    try reflexivity; try discriminate;
    try (eexists; split; [reflexivity | simpl; tauto]);
    destruct H as [p [H _]]; discriminate.
Qed.

Lemma getProblemFromError_throws (status : CorsErrorStatus) :
  ~ In (corsError status) problem_error_kinds <->
  getProblemFromError status = inl (Error "Invalid Argument").
Proof.
  rewrite <- case_of_In. destruct status as [k fp]; simpl.
  unfold getProblemFromError, problem_error_kinds, header_error_kinds,
    case_of, existsb; simpl.
  switch_on k; simpl; split; intros H;
    try reflexivity; try discriminate; try congruence.
Qed.

(** C5: [getHeaderFromError] accepts exactly the eight kinds of
    [header_error_kinds], which are pairwise distinct.  It sends
    [InvalidAllowMethodsPreflightResponse] to ["Access-Control-Allow-Methods"],
    [InvalidAllowHeadersPreflightResponse] to ["Access-Control-Allow-Headers"]
    and the six other kinds, [MissingAllowOriginHeader] among them, to
    ["Access-Control-Allow-Origin"]; on every other input it throws
    [Error "Invalid Argument"]. *)
Theorem getHeaderFromError_table :
  List.length header_error_kinds = 8 /\
  NoDup header_error_kinds /\
  getHeaderFromError CorsErrorKind.InvalidAllowMethodsPreflightResponse
    = inr "Access-Control-Allow-Methods" /\
  getHeaderFromError CorsErrorKind.InvalidAllowHeadersPreflightResponse
    = inr "Access-Control-Allow-Headers" /\
  Forall (fun k => getHeaderFromError k = inr "Access-Control-Allow-Origin")
    [CorsErrorKind.PreflightMissingAllowOriginHeader;
     CorsErrorKind.PreflightMultipleAllowOriginValues;
     CorsErrorKind.PreflightInvalidAllowOriginValue;
     CorsErrorKind.MissingAllowOriginHeader;
     CorsErrorKind.MultipleAllowOriginValues;
     CorsErrorKind.InvalidAllowOriginValue] /\
  (forall k, In k header_error_kinds <-> exists h, getHeaderFromError k = inr h) /\
  (forall k, ~ In k header_error_kinds <->
             getHeaderFromError k = inl (Error "Invalid Argument")).
Proof.
  split; [reflexivity|].
  split.
  { unfold header_error_kinds.
    repeat (constructor; [simpl; intuition discriminate|]). constructor. }
  split; [reflexivity|].
  split; [reflexivity|].
  split; [repeat constructor|].
  split; [exact getHeaderFromError_some | exact getHeaderFromError_throws].
Qed.

(** C6: [getProblemFromError] returns one of the five pairwise distinct
    phrases of [problem_phrases] exactly on the ten mapped kinds, every
    phrase is returned for some kind, [PreflightDisallowedRedirect] yields
    the redirect phrase, and the function throws [Error "Invalid Argument"]
    if and only if the kind is outside the mapped set. *)
Theorem getProblemFromError_table :
  List.length problem_phrases = 5 /\
  NoDup problem_phrases /\
  List.length problem_error_kinds = 10 /\
  NoDup problem_error_kinds /\
  (forall status,
      In (corsError status) problem_error_kinds <->
      exists p, getProblemFromError status = inr p /\ In p problem_phrases) /\
  Forall (fun p => exists k,
              In k problem_error_kinds /\
              forall fp, getProblemFromError
                           {| corsError := k; failedParameter := fp |} = inr p)
    problem_phrases /\
  (forall fp,
      getProblemFromError
        {| corsError := CorsErrorKind.PreflightDisallowedRedirect;
           failedParameter := fp |}
      = inr "Response to preflight was a redirect") /\
  (forall status,
      getProblemFromError status = inl (Error "Invalid Argument") <->
      ~ In (corsError status) problem_error_kinds).
Proof.
  split; [reflexivity|].
  split.
  { unfold problem_phrases.
    repeat (constructor; [simpl; intuition discriminate|]). constructor. }
  split; [reflexivity|].
  split.
  { unfold problem_error_kinds, header_error_kinds; simpl.
    repeat (constructor; [simpl; intuition discriminate|]). constructor. }
  split; [exact getProblemFromError_some|].
  split.
  { unfold problem_phrases. repeat constructor.
    - exists CorsErrorKind.InvalidAllowOriginValue.
      split; [simpl; tauto | reflexivity].
    - exists CorsErrorKind.MultipleAllowOriginValues.
      split; [simpl; tauto | reflexivity].
    - exists CorsErrorKind.MissingAllowOriginHeader.
      split; [simpl; tauto | reflexivity].
    - exists CorsErrorKind.PreflightInvalidStatus.
      split; [simpl; tauto | reflexivity].
    - exists CorsErrorKind.PreflightDisallowedRedirect.
      split; [simpl; tauto | reflexivity]. }
  split; [reflexivity|].
  intros status. symmetry. apply getProblemFromError_throws.
Qed.

(** The header lookup's domain lies inside the problem lookup's domain. *)
Lemma header_kinds_are_problem_kinds :
  incl header_error_kinds problem_error_kinds.
Proof. unfold problem_error_kinds. apply incl_appl, incl_refl. Qed.

(** ** Rows *)

(** When does [appendDetail] build its row?  For a handled subtype, exactly
    when the lookups it makes succeed. *)
Lemma appendDetail_element_some (c : IssueCode) (i : CorsIssue) :
  In c handled_codes ->
  (lookups_succeed c i = true <-> exists row, appendDetail_element c i = inr row).
Proof.
  intros Hc. unfold lookups_succeed, appendDetail_element.
  destruct c; simpl in Hc;
    try (exfalso; intuition discriminate);
    try (split; [intros _; eexists; reflexivity | reflexivity]).
  - (* InvalidHeaderValues *)
    rewrite case_of_In. split.
    + intros Hk.
      destruct (proj1 (getHeaderFromError_some _) Hk) as [h Hh].
      assert (Hk' := Hk). apply header_kinds_are_problem_kinds in Hk'.
      destruct (proj1 (getProblemFromError_some (corsErrorStatus (details i)))
                  Hk') as [p [Hp _]].
      unfold try_bind. rewrite Hh, Hp. eexists; reflexivity.
    + intros [row Hrow]. apply getHeaderFromError_some.
      unfold try_bind in Hrow.
      destruct (getHeaderFromError _) as [e|h]; [discriminate | eauto].
  - (* PreflightResponseInvalid *)
    rewrite case_of_In. split.
    + intros Hk.
      destruct (proj1 (getProblemFromError_some _) Hk) as [p [Hp _]].
      unfold try_bind. rewrite Hp. eexists; reflexivity.
    + intros [row Hrow].
      destruct (in_dec string_dec (corsError (corsErrorStatus (details i)))
                  problem_error_kinds) as [Hin|Hout]; [exact Hin|].
      apply getProblemFromError_throws in Hout.
      unfold try_bind in Hrow. rewrite Hout in Hrow. discriminate.
Qed.

(** Open up the row and header builders on a concrete subtype. *)
Ltac open_builders :=
  unfold appendDetail_element, appendDetails_header,
    appendPreflightIfProblematic, appendSecureContextCell, appendStatus,
    appendIssueDetailCell, appendColumnTitle, createRequestCell,
    classList_add, createElement_tr, appendChild, assertUnhandled, try_bind
    in *.

(** Split on what the record makes the row builder do. *)
Ltac split_row i :=
  repeat match goal with
         | H : context [getHeaderFromError ?k] |- _ =>
             destruct (getHeaderFromError k); try discriminate H
         | H : context [getProblemFromError ?s] |- _ =>
             destruct (getProblemFromError s); try discriminate H
         | H : context [includes ?s ?n] |- _ => destruct (includes s n)
         | H : context [isWarning ?d] |- _ => destruct (isWarning d)
         | H : context [clientSecurityState ?d] |- _ =>
             destruct (clientSecurityState d) as [[[|] ?]|]
         | H : inr _ = inr _ |- _ => inversion H; clear H; subst
         end.

(** C1: for each of the ten handled subtypes the header row is built, it
    consists of column titles starting with Request and Status, and every
    data row rendered for that subtype holds as many cells as the header
    holds column titles. *)
Theorem header_columns_match_row_cells
    (c : IssueCode) (i : CorsIssue) (row : Tr) :
  In c handled_codes ->
  appendDetail_element c i = inr row ->
  exists header,
    appendDetails_header c = inr header /\
    forallb is_column_title (children header) = true /\
    firstn 2 (children header) = [ColumnTitle "Request"; ColumnTitle "Status"] /\
    List.length (children header) = List.length (children row).
Proof.
  intros Hc Hrow.
  destruct c; simpl in Hc; try (exfalso; intuition discriminate);
    open_builders; split_row i;
    (eexists; split; [reflexivity | repeat split]).
Qed.

Lemma header_columns_match_row_cells_witness :
  In InvalidHeaderValues handled_codes /\
  (exists row,
      appendDetail_element InvalidHeaderValues
        (sample_issue InvalidHeaderValues
           CorsErrorKind.PreflightMissingAllowOriginHeader None) = inr row /\
      exists header,
        appendDetails_header InvalidHeaderValues = inr header /\
        forallb is_column_title (children header) = true /\
        firstn 2 (children header)
          = [ColumnTitle "Request"; ColumnTitle "Status"] /\
        List.length (children header) = List.length (children row)).
Proof.
  split; [simpl; tauto|].
  eexists. split; [reflexivity|].
  apply (@header_columns_match_row_cells InvalidHeaderValues
           (sample_issue InvalidHeaderValues
              CorsErrorKind.PreflightMissingAllowOriginHeader None));
    [simpl; tauto | reflexivity].
Defined.

(** C7: in a row rendered for InvalidHeaderValues, WildcardOriginNotAllowed,
    OriginMismatch or AllowCredentialsRequired, the cell after Request and
    Status is the preflight-linked request cell exactly when the name of the
    record's error kind contains "Preflight", and an empty cell exactly when
    it does not. *)
Theorem preflight_cell_iff_name_contains_Preflight
    (c : IssueCode) (i : CorsIssue) (row : Tr) :
  In c preflight_if_problematic_codes ->
  appendDetail_element c i = inr row ->
  (nth_error (children row) 2 = Some (RequestCell (request (details i)) true)
   <-> contains_substring (corsError (corsErrorStatus (details i))) "Preflight")
  /\
  (nth_error (children row) 2 = Some (IssueDetailCell "" None)
   <-> ~ contains_substring (corsError (corsErrorStatus (details i))) "Preflight").
Proof.
  intros Hc Hrow.
  rewrite <- includes_spec.
  destruct c; simpl in Hc; try (exfalso; intuition discriminate);
    open_builders;
    destruct (includes (corsError (corsErrorStatus (details i))) "Preflight");
    split_row i; simpl;
    (split; split; intros H; try reflexivity; try discriminate; congruence).
Qed.

Lemma preflight_cell_iff_name_contains_Preflight_witness :
  In OriginMismatch preflight_if_problematic_codes /\
  (exists row,
      appendDetail_element OriginMismatch
        (sample_issue OriginMismatch "PreflightAllowOriginMismatch" None)
      = inr row /\
      (nth_error (children row) 2 = Some (RequestCell sample_request true)
       <-> contains_substring "PreflightAllowOriginMismatch" "Preflight") /\
      (nth_error (children row) 2 = Some (IssueDetailCell "" None)
       <-> ~ contains_substring "PreflightAllowOriginMismatch" "Preflight")).
Proof.
  split; [simpl; tauto|].
  eexists. split; [reflexivity|].
  apply (@preflight_cell_iff_name_contains_Preflight OriginMismatch
           (sample_issue OriginMismatch "PreflightAllowOriginMismatch" None));
    [simpl; tauto | reflexivity].
Defined.

(** C8: a row for InsecurePrivateNetwork or InsecurePrivateNetworkPreflight
    is always rendered, and its third extra cell (the fifth cell) reads
    "secure" when [initiatorIsSecureContext] is true, "insecure" when it is
    false, and is empty when it is undefined. *)
Theorem secure_context_cell_text (c : IssueCode) (i : CorsIssue) :
  In c [InsecurePrivateNetwork; InsecurePrivateNetworkPreflight] ->
  exists row,
    appendDetail_element c i = inr row /\
    List.length (children row) = 5 /\
    nth_error (children row) 4 =
      Some (IssueDetailCell
              match option_map initiatorIsSecureContext
                      (clientSecurityState (details i)) with
              | Some true => "secure"
              | Some false => "insecure"
              | None => ""
              end None).
Proof.
  intros Hc.
  destruct c; simpl in Hc; try (exfalso; intuition discriminate);
    open_builders; eexists; (split; [reflexivity|]);
    destruct (clientSecurityState (details i)) as [[[|] space]|];
    split; reflexivity.
Qed.

Lemma secure_context_cell_text_witness :
  In InsecurePrivateNetwork
    [InsecurePrivateNetwork; InsecurePrivateNetworkPreflight] /\
  exists row,
    appendDetail_element InsecurePrivateNetwork
      (sample_issue InsecurePrivateNetwork "InsecurePrivateNetwork"
         (Some {| initiatorIsSecureContext := false;
                  initiatorIPAddressSpace := "Public" |})) = inr row /\
    List.length (children row) = 5 /\
    nth_error (children row) 4 = Some (IssueDetailCell "insecure" None).
Proof.
  split; [simpl; tauto|].
  apply (@secure_context_cell_text InsecurePrivateNetwork
           (sample_issue InsecurePrivateNetwork "InsecurePrivateNetwork"
              (Some {| initiatorIsSecureContext := false;
                       initiatorIPAddressSpace := "Public" |}))).
  simpl; tauto.
Defined.

(** C9: every error kind [getHeaderFromError] accepts is accepted by
    [getProblemFromError]; so for a record whose header-name lookup
    succeeds the problem-text lookup returns a phrase instead of throwing,
    and the InvalidHeaderValues row is built. *)
Theorem header_lookup_implies_problem_lookup (i : CorsIssue) (h : string) :
  getHeaderFromError (corsError (corsErrorStatus (details i))) = inr h ->
  incl header_error_kinds problem_error_kinds /\
  (exists p, getProblemFromError (corsErrorStatus (details i)) = inr p /\
             In p problem_phrases) /\
  (forall e, getProblemFromError (corsErrorStatus (details i)) <> inl e) /\
  (exists row, appendDetail_element InvalidHeaderValues i = inr row).
Proof.
  intros Hh.
  assert (Hk : In (corsError (corsErrorStatus (details i))) header_error_kinds)
    by (apply getHeaderFromError_some; eauto).
  assert (Hk' := Hk). apply header_kinds_are_problem_kinds in Hk'.
  apply getProblemFromError_some in Hk'. destruct Hk' as [p [Hp Hin]].
  split; [exact header_kinds_are_problem_kinds|].
  split; [eauto|].
  split; [intros e He; congruence|].
  apply appendDetail_element_some; [simpl; tauto|].
  unfold lookups_succeed. apply case_of_In. exact Hk.
Qed.

Lemma header_lookup_implies_problem_lookup_witness :
  let i := sample_issue InvalidHeaderValues
             CorsErrorKind.InvalidAllowMethodsPreflightResponse None in
  getHeaderFromError (corsError (corsErrorStatus (details i)))
    = inr "Access-Control-Allow-Methods" /\
  incl header_error_kinds problem_error_kinds /\
  (exists p, getProblemFromError (corsErrorStatus (details i)) = inr p /\
             In p problem_phrases) /\
  (forall e, getProblemFromError (corsErrorStatus (details i)) <> inl e) /\
  (exists row, appendDetail_element InvalidHeaderValues i = inr row).
Proof.
  intros i. split; [reflexivity|].
  apply (@header_lookup_implies_problem_lookup i "Access-Control-Allow-Methods").
  reflexivity.
Defined.

(** The two lists of subtypes cover the enumeration and do not overlap. *)
Lemma handled_or_unhandled (c : IssueCode) :
  (In c handled_codes /\ ~ In c unhandled_codes) \/
  (In c unhandled_codes /\ ~ In c handled_codes).
Proof.
  destruct c;
    ((left; split; [simpl; tauto | simpl; intuition discriminate]) ||
     (right; split; [simpl; tauto | simpl; intuition discriminate])).
Qed.

(** ** The table *)

Lemma appendDetail_element_is_data_row (c : IssueCode) (i : CorsIssue)
    (row : Tr) :
  appendDetail_element c i = inr row -> is_data_row row = true.
Proof.
  intros Hrow.
  destruct c; open_builders; split_row i; try discriminate; reflexivity.
Qed.

Lemma appendDetails_header_is_header_row (c : IssueCode) (header : Tr) :
  appendDetails_header c = inr header -> is_header_row header = true.
Proof.
  intros Hh.
  destruct c; open_builders; try discriminate;
    inversion Hh; reflexivity.
Qed.

(** A handled subtype always gets its header. *)
Lemma appendDetails_header_some (c : IssueCode) :
  In c handled_codes -> exists header, appendDetails_header c = inr header.
Proof.
  intros Hc.
  destruct c; simpl in Hc; try (exfalso; intuition discriminate);
    eexists; reflexivity.
Qed.

Lemma appendDetails_unfold (c : IssueCode) (issues : list CorsIssue) :
  appendDetails c issues =
  (header <- lift (appendDetails_header c) ;;
   affectedResources_appendChild header ;;
   count <- appendDetails_loop c issues 0 ;;
   updateAffectedResourceCount count)%view.
Proof. reflexivity. Qed.

(** When every row is built, the loop appends the rows in iteration order
    and counts them. *)
Lemma appendDetails_loop_rows (c : IssueCode) (issues : list CorsIssue)
    (rows : list Tr) :
  Forall2 (fun i row => appendDetail_element c i = inr row) issues rows ->
  forall count this,
    appendDetails_loop c issues count this =
    Returned (count + List.length issues)
      {| issue := issue this;
         affectedResources := affectedResources this ++ rows;
         reportedCounts := reportedCounts this |}.
Proof.
  induction 1 as [|i row issues rows Hrow Hrest IH]; intros count this.
  - simpl. unfold ret. rewrite Nat.add_0_r, app_nil_r.
    destruct this; reflexivity.
  - unfold appendDetails_loop in *. simpl for_of.
    unfold bind at 1. unfold bind at 1. unfold appendDetail at 1.
    unfold bind at 1. unfold lift. rewrite Hrow.
    unfold affectedResources_appendChild, ret. rewrite IH. simpl.
    rewrite <- app_assoc. simpl. f_equal. lia.
Qed.

(** The rows of records whose lookups succeed. *)
Lemma lookups_succeed_rows (c : IssueCode) (issues : list CorsIssue) :
  In c handled_codes ->
  forallb (lookups_succeed c) issues = true ->
  exists rows,
    Forall2 (fun i row => appendDetail_element c i = inr row) issues rows /\
    forallb is_data_row rows = true.
Proof.
  intros Hc. induction issues as [|i issues IH]; simpl; intros Hall.
  - exists []. split; [constructor | reflexivity].
  - apply andb_true_iff in Hall. destruct Hall as [Hi Hall].
    destruct (IH Hall) as [rows [Hrows Hdata]].
    destruct (proj1 (appendDetail_element_some i Hc) Hi) as [row Hrow].
    exists (row :: rows). split; [constructor; assumption|].
    simpl. rewrite (appendDetail_element_is_data_row _ _ Hrow). exact Hdata.
Qed.

(** Continuations that agree everywhere give the same computation. *)
Lemma bind_ext {A B : Type} (m : M A) (k1 k2 : A -> M B) (this : View) :
  (forall a this', k1 a this' = k2 a this') ->
  bind m k1 this = bind m k2 this.
Proof.
  intros Hk. unfold bind. destruct (m this); [apply Hk | reflexivity].
Qed.

(** The loop does not look at the subtype a record carries. *)
Lemma appendDetails_loop_with_code (c : IssueCode)
    (recode : CorsIssue -> IssueCode) (issues : list CorsIssue) :
  forall count this,
    appendDetails_loop c (map (fun i => with_code (recode i) i) issues)
      count this
    = appendDetails_loop c issues count this.
Proof.
  unfold appendDetails_loop.
  induction issues as [|i issues IH]; intros count this; simpl.
  - reflexivity.
  - change (appendDetail c (with_code (recode i) i)) with (appendDetail c i).
    apply bind_ext. intros count' this'. apply IH.
Qed.

(** [appendDetails] on records whose rows are all built. *)
Lemma appendDetails_rows (c : IssueCode) (issues : list CorsIssue)
    (header : Tr) (rows : list Tr) (this : View) :
  appendDetails_header c = inr header ->
  Forall2 (fun i row => appendDetail_element c i = inr row) issues rows ->
  appendDetails c issues this =
  Returned tt
    {| issue := issue this;
       affectedResources := affectedResources this ++ header :: rows;
       reportedCounts := reportedCounts this ++ [List.length issues] |}.
Proof.
  intros Hh Hrows. rewrite appendDetails_unfold.
  unfold bind at 1. unfold lift. rewrite Hh.
  unfold bind at 1. unfold affectedResources_appendChild.
  unfold bind. rewrite (@appendDetails_loop_rows c issues rows Hrows).
  unfold updateAffectedResourceCount. simpl.
  rewrite <- app_assoc. reflexivity.
Qed.


(** C4 fails as stated: for DisallowedByMode, a subtype the switches leave
    to [default], the header and the data row are built and [update]
    returns; nothing is thrown. *)
Lemma unhandled_code_counterexample :
  ~ In DisallowedByMode handled_codes /\
  In DisallowedByMode unhandled_codes /\
  (exists header, appendDetails_header DisallowedByMode = inr header) /\
  (exists row,
      appendDetail_element DisallowedByMode disallowed_issue = inr row) /\
  (exists after,
      update disallowed_view = Returned tt after /\
      List.length (affectedResources after) = 2 /\
      reportedCounts after = [1]).
Proof.
  split; [simpl; intuition discriminate|].
  split; [simpl; tauto|].
  split; [eexists; reflexivity|].
  split; [eexists; reflexivity|].
  eexists. split; [reflexivity|]. split; reflexivity.
Qed.

(** C4, amended: for a subtype outside the ten handled ones, that is for
    DisallowedByMode, CorsDisabledScheme, PreflightMissingAllowExternal,
    PreflightInvalidAllowExternal and InvalidResponse, building the header
    and building a data row reach the default branch, whose check returns:
    the header gets the Request and Status titles only, every data row gets
    the request and status cells only, and [appendDetails] returns with the
    header and one row per record appended and their number reported. *)
Theorem unhandled_code_renders_default_columns (c : IssueCode) :
  ~ In c handled_codes ->
  In c unhandled_codes /\
  appendDetails_header c =
    inr {| classList := [];
           children := [ColumnTitle "Request"; ColumnTitle "Status"] |} /\
  (forall i,
      appendDetail_element c i =
      inr {| classList := ["affected-resource-directive"];
             children :=
               [RequestCell (request (details i)) false;
                if isWarning (details i)
                then StatusCell "affected-resource-report-only-status"
                       "warning"
                else StatusCell "affected-resource-blocked-status"
                       "blocked"] |}) /\
  (forall issues this,
      exists rows,
        List.length rows = List.length issues /\
        appendDetails c issues this =
        Returned tt
          {| issue := issue this;
             affectedResources :=
               affectedResources this ++
               {| classList := [];
                  children := [ColumnTitle "Request"; ColumnTitle "Status"] |}
               :: rows;
             reportedCounts :=
               reportedCounts this ++ [List.length issues] |}).
Proof.
  intros Hc.
  assert (Hrow : forall i,
             appendDetail_element c i =
             inr {| classList := ["affected-resource-directive"];
                    children :=
                      [RequestCell (request (details i)) false;
                       if isWarning (details i)
                       then StatusCell "affected-resource-report-only-status"
                              "warning"
                       else StatusCell "affected-resource-blocked-status"
                              "blocked"] |}).
  { intros i. destruct c; try (exfalso; apply Hc; simpl; tauto);
      open_builders; destruct (isWarning (details i)); reflexivity. }
  assert (Hheader : appendDetails_header c =
                    inr {| classList := [];
                           children := [ColumnTitle "Request";
                                        ColumnTitle "Status"] |}).
  { destruct c; try (exfalso; apply Hc; simpl; tauto); reflexivity. }
  split; [destruct c; try (exfalso; apply Hc; simpl; tauto); simpl; tauto|].
  split; [exact Hheader|]. split; [exact Hrow|].
  intros issues this.
  assert (Hrows : exists rows,
             Forall2 (fun i row => appendDetail_element c i = inr row)
               issues rows).
  { induction issues as [|i issues [rows IH]].
    - exists []. constructor.
    - eexists (_ :: rows). constructor; [apply Hrow | exact IH]. }
  destruct Hrows as [rows Hrows]. exists rows.
  split; [symmetry; exact (Forall2_length Hrows)|].
  exact (@appendDetails_rows c issues _ rows this Hheader Hrows).
Qed.

Lemma unhandled_code_renders_default_columns_witness :
  ~ In InvalidResponse handled_codes /\
  In InvalidResponse unhandled_codes /\
  appendDetails_header InvalidResponse =
    inr {| classList := [];
           children := [ColumnTitle "Request"; ColumnTitle "Status"] |} /\
  (forall i,
      appendDetail_element InvalidResponse i =
      inr {| classList := ["affected-resource-directive"];
             children :=
               [RequestCell (request (details i)) false;
                if isWarning (details i)
                then StatusCell "affected-resource-report-only-status"
                       "warning"
                else StatusCell "affected-resource-blocked-status"
                       "blocked"] |}) /\
  (forall issues this,
      exists rows,
        List.length rows = List.length issues /\
        appendDetails InvalidResponse issues this =
        Returned tt
          {| issue := issue this;
             affectedResources :=
               affectedResources this ++
               {| classList := [];
                  children := [ColumnTitle "Request"; ColumnTitle "Status"] |}
               :: rows;
             reportedCounts :=
               reportedCounts this ++ [List.length issues] |}).
Proof.
  assert (H : ~ In InvalidResponse handled_codes)
    by (simpl; intuition discriminate).
  split; [exact H|].
  exact (@unhandled_code_renders_default_columns InvalidResponse H).
Defined.



(** Whatever the subtype, a row is built exactly when the lookups it needs
    succeed. *)
Lemma appendDetail_element_built (c : IssueCode) (i : CorsIssue) :
  lookups_succeed c i = true <-> exists row, appendDetail_element c i = inr row.
Proof.
  destruct c;
    try (apply appendDetail_element_some; simpl; tauto);
    (split; [intros _; eexists; reflexivity | reflexivity]).
Qed.




(** C3: [update] starts by clearing, so its outcome does not depend on what
    the container held before; and on an empty record collection it returns
    with an empty container and the count 0 reported. *)
Theorem update_clears_and_reports_zero :
  (forall (a : AggregatedIssue) (prior : list Tr) (counts : list nat),
      update {| issue := a; affectedResources := prior;
                reportedCounts := counts |}
      = update {| issue := a; affectedResources := [];
                  reportedCounts := counts |}) /\
  (forall (prior : list Tr) (counts : list nat),
      update {| issue := {| getCorsIssues := [] |};
                affectedResources := prior; reportedCounts := counts |}
      = Returned tt {| issue := {| getCorsIssues := [] |};
                       affectedResources := [];
                       reportedCounts := counts ++ [0] |}).
Proof.
  split; intros; reflexivity.
Qed.

(** C10: [update] is a method without a subtype parameter.  On a non-empty
    record collection it renders with the subtype of the first record in
    iteration order: its outcome is that of [appendDetails] called with this
    one subtype on the cleared view, and that outcome stays the same
    whatever subtypes the later records carry. *)
Theorem update_uses_first_code
    (first : CorsIssue) (rest : list CorsIssue)
    (prior : list Tr) (counts : list nat) :
  let this := {| issue := {| getCorsIssues := first :: rest |};
                 affectedResources := prior; reportedCounts := counts |} in
  update this = appendDetails (code first) (first :: rest) (cleared this) /\
  (forall recode : CorsIssue -> IssueCode,
      appendDetails (code first)
        (first :: map (fun i => with_code (recode i) i) rest) (cleared this)
      = appendDetails (code first) (first :: rest) (cleared this)) /\
  (forall header rows,
      appendDetails_header (code first) = inr header ->
      Forall2 (fun i row => appendDetail_element (code first) i = inr row)
        (first :: rest) rows ->
      affectedResources (view_of (update this)) = header :: rows).
Proof.
  intros this. split; [reflexivity|]. split.
  - intros recode. rewrite !appendDetails_unfold.
    apply bind_ext. intros header this1.
    apply bind_ext. intros u this2.
    unfold bind.
    change (appendDetails_loop (code first)
              (first :: map (fun i => with_code (recode i) i) rest) 0 this2)
      with (appendDetails_loop (code first)
              (map (fun i => with_code (recode i) i)
                 (with_code (code first) first :: rest)) 0 this2).
    rewrite appendDetails_loop_with_code. reflexivity.
  - intros header rows Hh Hrows.
    change (update this)
      with (appendDetails (code first) (first :: rest) (cleared this)).
    rewrite (@appendDetails_rows (code first) (first :: rest) header rows
               (cleared this) Hh Hrows).
    reflexivity.
Qed.

(** A later record filed under another subtype is still rendered with the
    first record's columns: here the second record carries
    InsecurePrivateNetwork, and both rows get the OriginMismatch cells. *)
Example update_mixed_codes :
  let second :=
    sample_issue InsecurePrivateNetwork "AllowOriginMismatch" None in
  let this :=
    {| issue := {| getCorsIssues :=
                     [sample_issue OriginMismatch "AllowOriginMismatch" None;
                      second] |};
       affectedResources := []; reportedCounts := [] |} in
  exists header row,
    appendDetails_header OriginMismatch = inr header /\
    appendDetail_element OriginMismatch second = inr row /\
    update this =
    Returned tt {| issue := issue this;
                   affectedResources := [header; row; row];
                   reportedCounts := [2] |}.
Proof.
  do 2 eexists. repeat split.
Qed.


(** ** The render as a function of the issue *)

Lemma with_rows_nil (this : View) : with_rows this [] = this.
Proof. unfold with_rows. rewrite app_nil_r. destruct this; reflexivity. Qed.

Lemma with_rows_cons (this : View) (row : Tr) (rows : list Tr) :
  with_rows (with_rows this [row]) rows = with_rows this (row :: rows).
Proof. unfold with_rows; simpl. rewrite <- app_assoc. reflexivity. Qed.

(** The loop appends the rows of [rows_until_throw] and then returns the
    count or throws. *)
Lemma appendDetails_loop_eq (c : IssueCode) (issues : list CorsIssue) :
  forall count this,
    appendDetails_loop c issues count this =
    match rows_until_throw c issues with
    | (rows, None) =>
        Returned (count + List.length issues) (with_rows this rows)
    | (rows, Some e) => Thrown e (with_rows this rows)
    end.
Proof.
  unfold appendDetails_loop.
  induction issues as [|i issues IH]; intros count this.
  - simpl. unfold ret. rewrite with_rows_nil, Nat.add_0_r. reflexivity.
  - simpl for_of. simpl rows_until_throw.
    unfold bind at 1. unfold bind at 1. unfold appendDetail at 1.
    unfold bind at 1. unfold lift.
    destruct (appendDetail_element c i) as [e|row].
    + rewrite with_rows_nil. reflexivity.
    + unfold affectedResources_appendChild, ret. rewrite IH.
      fold (with_rows this [row]).
      destruct (rows_until_throw c issues) as [rows [e|]];
        rewrite with_rows_cons; [reflexivity|].
      simpl. f_equal. lia.
Qed.

Lemma appendDetails_eq (c : IssueCode) (issues : list CorsIssue)
    (this : View) :
  appendDetails c issues this =
  match appendDetails_header c with
  | inl e => Thrown e this
  | inr header =>
      match rows_until_throw c issues with
      | (rows, None) =>
          Returned tt (with_count (with_rows this (header :: rows))
                         (List.length issues))
      | (rows, Some e) => Thrown e (with_rows this (header :: rows))
      end
  end.
Proof.
  rewrite appendDetails_unfold. unfold bind at 1. unfold lift.
  destruct (appendDetails_header c) as [e|header]; [reflexivity|].
  unfold bind at 1. unfold affectedResources_appendChild.
  unfold bind. rewrite appendDetails_loop_eq.
  fold (with_rows this [header]).
  destruct (rows_until_throw c issues) as [rows [e|]];
    rewrite with_rows_cons; reflexivity.
Qed.

Lemma update_eq (this : View) :
  update this = render_outcome (issue this) (reportedCounts this).
Proof.
  unfold update, bind, clear, render_outcome. simpl.
  destruct (getCorsIssues (issue this)) as [|first rest] eqn:Hissues.
  - reflexivity.
  - rewrite appendDetails_eq.
    destruct (appendDetails_header (code first)) as [e|header];
      [reflexivity|].
    destruct (rows_until_throw (code first) (first :: rest)) as [rows [e|]];
      reflexivity.
Qed.

(** The rows built before a throw are fewer than the records; without a
    throw there is one row per record. *)
Lemma rows_until_throw_length (c : IssueCode) (issues : list CorsIssue) :
  match rows_until_throw c issues with
  | (rows, None) => List.length rows = List.length issues
  | (rows, Some _) => List.length rows < List.length issues
  end.
Proof.
  induction issues as [|i issues IH]; simpl.
  - reflexivity.
  - destruct (appendDetail_element c i) as [e|row]; [simpl; lia|].
    destruct (rows_until_throw c issues) as [rows [e|]]; simpl; lia.
Qed.

(** Records whose rows are all built, followed by one whose row fails. *)
Lemma rows_until_throw_app (c : IssueCode) (before : list CorsIssue)
    (rows : list Tr) (bad : CorsIssue) (rest : list CorsIssue) (e : Exn) :
  Forall2 (fun i row => appendDetail_element c i = inr row) before rows ->
  appendDetail_element c bad = inl e ->
  rows_until_throw c (before ++ bad :: rest) = (rows, Some e).
Proof.
  intros Hrows Hbad.
  induction Hrows as [|i row before rows Hrow _ IH]; simpl.
  - rewrite Hbad. reflexivity.
  - rewrite Hrow, IH. reflexivity.
Qed.

Lemma rows_until_throw_all (c : IssueCode) (issues : list CorsIssue)
    (rows : list Tr) :
  Forall2 (fun i row => appendDetail_element c i = inr row) issues rows ->
  rows_until_throw c issues = (rows, None).
Proof.
  induction 1 as [|i row issues rows Hrow _ IH]; simpl.
  - reflexivity.
  - rewrite Hrow, IH. reflexivity.
Qed.

(** A handled row fails only with the lookups' error. *)
Lemma appendDetail_element_fails (c : IssueCode) (i : CorsIssue) :
  In c handled_codes ->
  lookups_succeed c i = false ->
  appendDetail_element c i = inl (Error "Invalid Argument").
Proof.
  intros Hc Hfail.
  assert (Hnot : ~ In (corsError (corsErrorStatus (details i)))
                   (match c with
                    | InvalidHeaderValues => header_error_kinds
                    | _ => problem_error_kinds
                    end) \/ lookups_succeed c i = true).
  { unfold lookups_succeed in *.
    destruct c; try (right; reflexivity);
      left; rewrite <- case_of_In; congruence. }
  destruct Hnot as [Hnot|Hok]; [|congruence].
  destruct c; simpl in Hc; try (exfalso; intuition discriminate);
    try discriminate Hfail.
  - apply getHeaderFromError_throws in Hnot.
    unfold appendDetail_element, try_bind. rewrite Hnot. reflexivity.
  - apply getProblemFromError_throws in Hnot.
    unfold appendDetail_element, try_bind. rewrite Hnot. reflexivity.
Qed.

(** When [update] returns on a non-empty collection, the lookups have
    succeeded on every record. *)
Lemma update_returns_only_if_lookups_succeed (this after : View)
    (first : CorsIssue) (rest : list CorsIssue) :
  getCorsIssues (issue this) = first :: rest ->
  update this = Returned tt after ->
  forallb (lookups_succeed (code first)) (first :: rest) = true.
Proof.
  intros Hissues Hret.
  rewrite update_eq in Hret. unfold render_outcome in Hret.
  rewrite Hissues in Hret.
  destruct (appendDetails_header (code first)) as [e|header];
    [discriminate|].
  generalize dependent (code first). intros c Hret.
  clear Hissues.
  assert (Hnone : exists rows, rows_until_throw c (first :: rest) = (rows, None)).
  { destruct (rows_until_throw c (first :: rest)) as [rows [e|]];
      [discriminate | eauto]. }
  clear Hret. generalize dependent (first :: rest). intros issues.
  induction issues as [|i issues IH]; intros [rows Hnone]; [reflexivity|].
  simpl in Hnone. simpl.
  destruct (appendDetail_element c i) as [e|row] eqn:Hrow; [discriminate|].
  destruct (rows_until_throw c issues) as [rows' [e|]] eqn:Hrest;
    [discriminate|].
  rewrite (proj2 (appendDetail_element_built c i)) by eauto.
  apply IH. eauto.
Qed.

(** ** More on rows *)

(** X1: whatever the subtype, a row that is built carries the class
    [affected-resource-directive] only, starts with the request cell without
    preflight link, and continues with the status cell: "warning" in the
    report-only style for a warning, "blocked" in the blocked style
    otherwise. *)
Theorem row_starts_with_request_and_status
    (c : IssueCode) (i : CorsIssue) (row : Tr) :
  appendDetail_element c i = inr row ->
  classList row = ["affected-resource-directive"] /\
  nth_error (children row) 0 = Some (RequestCell (request (details i)) false) /\
  nth_error (children row) 1 =
    Some (if isWarning (details i)
          then StatusCell "affected-resource-report-only-status" "warning"
          else StatusCell "affected-resource-blocked-status" "blocked").
Proof.
  intros Hrow.
  destruct c; open_builders;
    repeat match goal with
           | H : context [getHeaderFromError ?k] |- _ =>
               destruct (getHeaderFromError k); try discriminate H
           | H : context [getProblemFromError ?s] |- _ =>
               destruct (getProblemFromError s); try discriminate H
           | H : context [includes ?s ?n] |- _ => destruct (includes s n)
           | H : context [clientSecurityState ?d] |- _ =>
               destruct (clientSecurityState d) as [[[|] ?]|]
           end;
    try discriminate Hrow;
    inversion Hrow; subst row; repeat split.
Qed.

Lemma row_starts_with_request_and_status_witness :
  exists row,
    appendDetail_element InsecurePrivateNetwork bare_private_network_issue
    = inr row /\
    classList row = ["affected-resource-directive"] /\
    nth_error (children row) 0 = Some (RequestCell sample_request false) /\
    nth_error (children row) 1 =
      Some (StatusCell "affected-resource-report-only-status" "warning").
Proof.
  eexists. split; [reflexivity|].
  apply (@row_starts_with_request_and_status InsecurePrivateNetwork
           bare_private_network_issue).
  reflexivity.
Defined.

(** X2: in a row built for InvalidHeaderValues, OriginMismatch,
    AllowCredentialsRequired, MethodDisallowedByPreflightResponse or
    HeaderDisallowedByPreflightResponse the last cell shows the record's
    failed parameter in the code-example style. *)
Theorem failed_parameter_is_last_cell
    (c : IssueCode) (i : CorsIssue) (row : Tr) :
  In c failed_parameter_codes ->
  appendDetail_element c i = inr row ->
  last (children row) (ColumnTitle "") =
  IssueDetailCell (failedParameter (corsErrorStatus (details i)))
    (Some "code-example").
Proof.
  intros Hc Hrow.
  destruct c; simpl in Hc; try (exfalso; intuition discriminate);
    open_builders; split_row i; reflexivity.
Qed.

Lemma failed_parameter_is_last_cell_witness :
  In AllowCredentialsRequired failed_parameter_codes /\
  exists row,
    appendDetail_element AllowCredentialsRequired
      (sample_issue AllowCredentialsRequired "InvalidAllowCredentials" None)
    = inr row /\
    last (children row) (ColumnTitle "") =
    IssueDetailCell "*" (Some "code-example").
Proof.
  split; [simpl; tauto|].
  eexists. split; [reflexivity|].
  apply (@failed_parameter_is_last_cell AllowCredentialsRequired
           (sample_issue AllowCredentialsRequired "InvalidAllowCredentials"
              None));
    [simpl; tauto | reflexivity].
Defined.

(** X3: in a row built for PreflightResponseInvalid,
    MethodDisallowedByPreflightResponse or HeaderDisallowedByPreflightResponse
    the third cell links the preflight request whatever the error kind is
    called; no substring test is made for these subtypes. *)
Theorem preflight_link_is_unconditional
    (c : IssueCode) (i : CorsIssue) (row : Tr) :
  In c preflight_always_codes ->
  appendDetail_element c i = inr row ->
  nth_error (children row) 2 = Some (RequestCell (request (details i)) true).
Proof.
  intros Hc Hrow.
  destruct c; simpl in Hc; try (exfalso; intuition discriminate);
    open_builders; split_row i; reflexivity.
Qed.

Lemma preflight_link_is_unconditional_witness :
  In MethodDisallowedByPreflightResponse preflight_always_codes /\
  includes "MethodDisallowedByCorsPolicy" "Preflight" = false /\
  exists row,
    appendDetail_element MethodDisallowedByPreflightResponse
      (sample_issue MethodDisallowedByPreflightResponse
         "MethodDisallowedByCorsPolicy" None) = inr row /\
    nth_error (children row) 2 = Some (RequestCell sample_request true).
Proof.
  split; [simpl; tauto|].
  split; [reflexivity|].
  eexists. split; [reflexivity|].
  apply (@preflight_link_is_unconditional MethodDisallowedByPreflightResponse
           (sample_issue MethodDisallowedByPreflightResponse
              "MethodDisallowedByCorsPolicy" None));
    [simpl; tauto | reflexivity].
Defined.

(** X4: absent optional data is no error.  A private-network record without
    resource address space and without client security state still gets its
    row, whose three extra cells are empty and unstyled; an OriginMismatch
    record without initiator origin gets an empty code-example cell in the
    Initiator Context column. *)
Theorem absent_optional_fields_give_empty_cells (c : IssueCode)
    (i : CorsIssue) :
  In c [InsecurePrivateNetwork; InsecurePrivateNetworkPreflight;
        OriginMismatch] ->
  resourceIPAddressSpace (details i) = None ->
  clientSecurityState (details i) = None ->
  initiatorOrigin (details i) = None ->
  exists row,
    appendDetail_element c i = inr row /\
    match c with
    | OriginMismatch =>
        nth_error (children row) 3
        = Some (IssueDetailCell "" (Some "code-example"))
    | _ =>
        skipn 2 (children row)
        = [IssueDetailCell "" None; IssueDetailCell "" None;
           IssueDetailCell "" None]
    end.
Proof.
  intros Hc Hres Hstate Horigin.
  destruct c; simpl in Hc; try (exfalso; intuition discriminate);
    open_builders; rewrite ?Hres, ?Hstate, ?Horigin;
    try (destruct (includes (corsError (corsErrorStatus (details i)))
                     "Preflight"));
    eexists; split; reflexivity.
Qed.

Lemma absent_optional_fields_give_empty_cells_witness :
  In InsecurePrivateNetwork
    [InsecurePrivateNetwork; InsecurePrivateNetworkPreflight;
     OriginMismatch] /\
  resourceIPAddressSpace (details bare_private_network_issue) = None /\
  clientSecurityState (details bare_private_network_issue) = None /\
  initiatorOrigin (details bare_private_network_issue) = None /\
  exists row,
    appendDetail_element InsecurePrivateNetwork bare_private_network_issue
    = inr row /\
    skipn 2 (children row)
    = [IssueDetailCell "" None; IssueDetailCell "" None;
       IssueDetailCell "" None].
Proof.
  split; [simpl; tauto|].
  split; [reflexivity|]. split; [reflexivity|]. split; [reflexivity|].
  apply (@absent_optional_fields_give_empty_cells InsecurePrivateNetwork
           bare_private_network_issue);
    [simpl; tauto | reflexivity | reflexivity | reflexivity].
Defined.

(** X5: a row of a handled subtype fails in one way only, with
    [Error "Invalid Argument"], and it does so exactly when the subtype is
    InvalidHeaderValues and the error kind is unknown to
    [getHeaderFromError], or the subtype is PreflightResponseInvalid and the
    error kind is unknown to [getProblemFromError]. *)
Theorem row_fails_exactly_on_unmapped_kind
    (c : IssueCode) (i : CorsIssue) (e : Exn) :
  In c handled_codes ->
  (appendDetail_element c i = inl e <->
   e = Error "Invalid Argument" /\
   ((c = InvalidHeaderValues /\
     ~ In (corsError (corsErrorStatus (details i))) header_error_kinds) \/
    (c = PreflightResponseInvalid /\
     ~ In (corsError (corsErrorStatus (details i))) problem_error_kinds))).
Proof.
  intros Hc.
  destruct (lookups_succeed c i) eqn:Hlook.
  - destruct (proj1 (@appendDetail_element_some c i Hc) Hlook) as [row Hrow].
    rewrite Hrow. split; [discriminate|].
    intros [_ [[-> Hnot] | [-> Hnot]]]; exfalso; apply Hnot;
      apply case_of_In; exact Hlook.
  - rewrite (@appendDetail_element_fails c i Hc Hlook). split.
    + intros He. split; [congruence|].
      unfold lookups_succeed in Hlook.
      destruct c; try discriminate Hlook;
        [left | right]; (split; [reflexivity|]);
        rewrite <- case_of_In; congruence.
    + intros [-> _]. reflexivity.
Qed.

Lemma row_fails_exactly_on_unmapped_kind_witness :
  In InvalidHeaderValues handled_codes /\
  (appendDetail_element InvalidHeaderValues unmapped_issue
   = inl (Error "Invalid Argument") <->
   Error "Invalid Argument" = Error "Invalid Argument" /\
   ((InvalidHeaderValues = InvalidHeaderValues /\
     ~ In (corsError (corsErrorStatus (details unmapped_issue)))
         header_error_kinds) \/
    (InvalidHeaderValues = PreflightResponseInvalid /\
     ~ In (corsError (corsErrorStatus (details unmapped_issue)))
         problem_error_kinds))).
Proof.
  assert (H : In InvalidHeaderValues handled_codes) by (simpl; tauto).
  split; [exact H|].
  exact (@row_fails_exactly_on_unmapped_kind InvalidHeaderValues
           unmapped_issue (Error "Invalid Argument") H).
Defined.

(** X6: of the eight error kinds an InvalidHeaderValues row can be built
    for, five have "Preflight" in their name and get the preflight link
    (the three Preflight... kinds and the two ...PreflightResponse kinds);
    the other three get the empty cell. *)
Theorem invalid_header_row_preflight_kinds (i : CorsIssue) (row : Tr) :
  appendDetail_element InvalidHeaderValues i = inr row ->
  (nth_error (children row) 2 = Some (RequestCell (request (details i)) true)
   <-> In (corsError (corsErrorStatus (details i)))
         [CorsErrorKind.InvalidAllowHeadersPreflightResponse;
          CorsErrorKind.InvalidAllowMethodsPreflightResponse;
          CorsErrorKind.PreflightMissingAllowOriginHeader;
          CorsErrorKind.PreflightMultipleAllowOriginValues;
          CorsErrorKind.PreflightInvalidAllowOriginValue]) /\
  (nth_error (children row) 2 = Some (IssueDetailCell "" None)
   <-> In (corsError (corsErrorStatus (details i)))
         [CorsErrorKind.MissingAllowOriginHeader;
          CorsErrorKind.MultipleAllowOriginValues;
          CorsErrorKind.InvalidAllowOriginValue]).
Proof.
  intros Hrow.
  assert (Hk : In (corsError (corsErrorStatus (details i))) header_error_kinds).
  { destruct (in_dec string_dec (corsError (corsErrorStatus (details i)))
                header_error_kinds) as [Hin|Hout]; [exact Hin|].
    apply getHeaderFromError_throws in Hout.
    unfold appendDetail_element, try_bind in Hrow.
    rewrite Hout in Hrow. discriminate. }
  destruct i as [ci [req warn [k fp] origin space state]].
  simpl in Hk |- *.
  repeat (destruct Hk as [Hk|Hk]; [subst k|]); [..|contradiction];
    vm_compute in Hrow; inversion Hrow; subst row; simpl;
    (split; split; intros H;
     try reflexivity; try discriminate H; try tauto;
     exfalso; intuition discriminate).
Qed.

Lemma invalid_header_row_preflight_kinds_witness :
  let i := sample_issue InvalidHeaderValues
             CorsErrorKind.MultipleAllowOriginValues None in
  exists row,
    appendDetail_element InvalidHeaderValues i = inr row /\
    (nth_error (children row) 2 = Some (RequestCell (request (details i)) true)
     <-> In (corsError (corsErrorStatus (details i)))
           [CorsErrorKind.InvalidAllowHeadersPreflightResponse;
            CorsErrorKind.InvalidAllowMethodsPreflightResponse;
            CorsErrorKind.PreflightMissingAllowOriginHeader;
            CorsErrorKind.PreflightMultipleAllowOriginValues;
            CorsErrorKind.PreflightInvalidAllowOriginValue]) /\
    (nth_error (children row) 2 = Some (IssueDetailCell "" None)
     <-> In (corsError (corsErrorStatus (details i)))
           [CorsErrorKind.MissingAllowOriginHeader;
            CorsErrorKind.MultipleAllowOriginValues;
            CorsErrorKind.InvalidAllowOriginValue]).
Proof.
  intros i. eexists. split; [reflexivity|].
  apply (@invalid_header_row_preflight_kinds i). reflexivity.
Defined.

(** ** More on the render *)

(** X7: [update] never changes the aggregated issue.  When it returns, it
    has reported the number of records after the earlier counts, and the
    container holds nothing for no record and one row more than there are
    records otherwise.  When it throws, it has reported nothing and the
    container holds at most as many rows as there are records. *)
Theorem update_count_matches_rows (this : View) :
  match update this with
  | Returned _ after =>
      issue after = issue this /\
      reportedCounts after =
        reportedCounts this ++ [List.length (getCorsIssues (issue this))] /\
      List.length (affectedResources after) =
        match getCorsIssues (issue this) with
        | [] => 0
        | _ :: _ => S (List.length (getCorsIssues (issue this)))
        end
  | Thrown _ after =>
      issue after = issue this /\
      reportedCounts after = reportedCounts this /\
      List.length (affectedResources after)
        <= List.length (getCorsIssues (issue this))
  end.
Proof.
  rewrite update_eq. unfold render_outcome.
  destruct (getCorsIssues (issue this)) as [|first rest].
  - repeat split.
  - destruct (appendDetails_header (code first)) as [e|header].
    + simpl. repeat split. lia.
    + pose proof (rows_until_throw_length (code first) (first :: rest)) as Hlen.
      destruct (rows_until_throw (code first) (first :: rest))
        as [rows [e|]]; simpl in *; repeat split; lia.
Qed.

(** X8: when the rows of the first records are built and the lookup of a
    later record fails, [update] throws [Error "Invalid Argument"] with the
    table half drawn: the container holds the header and the rows of the
    records before the failing one, and no count has been reported. *)
Theorem update_throws_at_first_failing_record
    (this : View) (before : list CorsIssue) (bad : CorsIssue)
    (rest : list CorsIssue) :
  getCorsIssues (issue this) = before ++ bad :: rest ->
  In (code (hd bad before)) handled_codes ->
  forallb (lookups_succeed (code (hd bad before))) before = true ->
  lookups_succeed (code (hd bad before)) bad = false ->
  exists header rows,
    appendDetails_header (code (hd bad before)) = inr header /\
    Forall2 (fun i row =>
               appendDetail_element (code (hd bad before)) i = inr row)
      before rows /\
    update this =
    Thrown (Error "Invalid Argument")
      {| issue := issue this;
         affectedResources := header :: rows;
         reportedCounts := reportedCounts this |}.
Proof.
  intros Hissues Hc Hbefore Hbad.
  destruct (@appendDetails_header_some (code (hd bad before)) Hc)
    as [header Hh].
  destruct (@lookups_succeed_rows (code (hd bad before)) before Hc Hbefore)
    as [rows [Hrows _]].
  exists header, rows. split; [exact Hh|]. split; [exact Hrows|].
  pose proof (@appendDetail_element_fails (code (hd bad before)) bad Hc Hbad)
    as Hfail.
  pose proof (@rows_until_throw_app (code (hd bad before)) before rows bad
                rest (Error "Invalid Argument") Hrows Hfail) as Huntil.
  rewrite update_eq. unfold render_outcome. rewrite Hissues.
  destruct before as [|first before]; simpl in *;
    rewrite Hh, Huntil; reflexivity.
Qed.

Lemma update_throws_at_first_failing_record_witness :
  getCorsIssues (issue failing_view)
    = header_issues_before ++ unmapped_issue :: [unmapped_issue] /\
  In (code (hd unmapped_issue header_issues_before)) handled_codes /\
  forallb (lookups_succeed (code (hd unmapped_issue header_issues_before)))
    header_issues_before = true /\
  lookups_succeed (code (hd unmapped_issue header_issues_before))
    unmapped_issue = false /\
  exists header rows,
    appendDetails_header (code (hd unmapped_issue header_issues_before))
      = inr header /\
    Forall2 (fun i row =>
               appendDetail_element
                 (code (hd unmapped_issue header_issues_before)) i = inr row)
      header_issues_before rows /\
    update failing_view =
    Thrown (Error "Invalid Argument")
      {| issue := issue failing_view;
         affectedResources := header :: rows;
         reportedCounts := reportedCounts failing_view |}.
Proof.
  split; [reflexivity|]. split; [simpl; tauto|].
  split; [reflexivity|]. split; [reflexivity|].
  apply (@update_throws_at_first_failing_record failing_view
           header_issues_before unmapped_issue [unmapped_issue]);
    [reflexivity | simpl; tauto | reflexivity | reflexivity].
Defined.

(** X9: rendering again changes nothing in the table.  When [update] has
    returned, a second [update] returns as well, leaves the same rows in
    the container, and reports the same count once more. *)
Theorem update_again_is_stable (this after : View) :
  update this = Returned tt after ->
  update after =
  Returned tt
    {| issue := issue after;
       affectedResources := affectedResources after;
       reportedCounts :=
         reportedCounts after ++ [List.length (getCorsIssues (issue this))] |}.
Proof.
  rewrite !update_eq. unfold render_outcome.
  destruct (getCorsIssues (issue this)) as [|first rest] eqn:Hissues.
  - intros H. inversion H; subst after; clear H. simpl.
    rewrite Hissues. reflexivity.
  - destruct (appendDetails_header (code first)) as [e|header] eqn:Hh;
      [discriminate|].
    destruct (rows_until_throw (code first) (first :: rest))
      as [rows [e|]] eqn:Hrows; [discriminate|].
    intros H. inversion H; subst after; clear H. simpl.
    rewrite Hissues, Hh, Hrows. reflexivity.
Qed.

Lemma update_again_is_stable_witness :
  exists after,
    update mismatch_view = Returned tt after /\
    update after =
    Returned tt
      {| issue := issue after;
         affectedResources := affectedResources after;
         reportedCounts := reportedCounts after ++ [2] |}.
Proof.
  eexists. split; [reflexivity|].
  apply (@update_again_is_stable mismatch_view). reflexivity.
Defined.

(** X10: when the first record's subtype is one of the eight handled
    subtypes that need no lookup, [update] cannot throw: whatever the
    records hold, it returns, reports their number, and leaves one header
    row followed by one data row per record. *)
Theorem update_returns_without_lookups (this : View) (first : CorsIssue)
    (rest : list CorsIssue) :
  getCorsIssues (issue this) = first :: rest ->
  In (code first) codes_without_lookup ->
  exists after,
    update this = Returned tt after /\
    reports_and_appends this after (List.length (first :: rest)).
Proof.
  intros Hissues Hc.
  assert (Hhandled : In (code first) handled_codes).
  { destruct (code first); simpl in Hc |- *; intuition discriminate. }
  assert (Hall : forallb (lookups_succeed (code first)) (first :: rest) = true).
  { apply forallb_forall. intros i _. unfold lookups_succeed.
    destruct (code first); simpl in Hc; try reflexivity;
      exfalso; intuition discriminate. }
  destruct (@appendDetails_header_some (code first) Hhandled) as [header Hh].
  destruct (@lookups_succeed_rows (code first) (first :: rest) Hhandled Hall)
    as [rows [Hrows Hdata]].
  rewrite update_eq. unfold render_outcome. rewrite Hissues, Hh.
  rewrite (@rows_until_throw_all (code first) (first :: rest) rows Hrows).
  eexists. split; [reflexivity|].
  split; [reflexivity|].
  exists header, rows. simpl.
  split; [reflexivity|].
  split; [exact (@appendDetails_header_is_header_row (code first) header Hh)|].
  split; [|exact Hdata].
  apply Forall2_length in Hrows. simpl in Hrows. lia.
Qed.

Lemma update_returns_without_lookups_witness :
  getCorsIssues (issue mismatch_view)
    = sample_issue OriginMismatch "PreflightAllowOriginMismatch" None
      :: [sample_issue OriginMismatch "AllowOriginMismatch" None] /\
  In OriginMismatch codes_without_lookup /\
  exists after,
    update mismatch_view = Returned tt after /\
    reports_and_appends mismatch_view after 2.
Proof.
  split; [reflexivity|]. split; [simpl; tauto|].
  apply (@update_returns_without_lookups mismatch_view
           (sample_issue OriginMismatch "PreflightAllowOriginMismatch" None)
           [sample_issue OriginMismatch "AllowOriginMismatch" None]);
    [reflexivity | simpl; tauto].
Defined.

(** X11: [appendDetails] only appends.  For a subtype and a record
    collection there are rows and at most one count such that, from every
    view, the call (returning or throwing) leaves the issue as it was, the
    old children followed by these rows, and the old counts followed by
    this count. *)
Theorem appendDetails_only_appends (c : IssueCode)
    (issues : list CorsIssue) :
  exists (rows : list Tr) (counts : list nat),
    List.length counts <= 1 /\
    List.length rows <= S (List.length issues) /\
    forall this,
      view_of (appendDetails c issues this) =
      {| issue := issue this;
         affectedResources := affectedResources this ++ rows;
         reportedCounts := reportedCounts this ++ counts |}.
Proof.
  destruct (appendDetails_header c) as [e|header] eqn:Hh.
  - exists [], []. split; [simpl; lia|]. split; [simpl; lia|].
    intros this. rewrite appendDetails_eq, Hh. simpl.
    rewrite !app_nil_r. destruct this; reflexivity.
  - pose proof (rows_until_throw_length c issues) as Hlen.
    destruct (rows_until_throw c issues) as [rows [e|]] eqn:Hrows.
    + exists (header :: rows), []. split; [simpl; lia|].
      split; [simpl; lia|].
      intros this. rewrite appendDetails_eq, Hh, Hrows. simpl.
      rewrite app_nil_r. reflexivity.
    + exists (header :: rows), [List.length issues]. split; [simpl; lia|].
      split; [simpl; lia|].
      intros this. rewrite appendDetails_eq, Hh, Hrows. reflexivity.
Qed.

(** X12: a header that is built never repeats a column title, has between
    two and six columns, and carries no class. *)
Theorem header_titles_are_distinct (c : IssueCode) (header : Tr) :
  appendDetails_header c = inr header ->
  NoDup (children header) /\
  2 <= List.length (children header) <= 6 /\
  classList header = [].
Proof.
  intros Hh.
  destruct c; open_builders; try discriminate Hh;
    inversion Hh; subst header; simpl;
    (split; [repeat (constructor; [simpl; intuition discriminate|]);
             constructor
            | split; [lia | reflexivity]]).
Qed.

Lemma header_titles_are_distinct_witness :
  exists header,
    appendDetails_header InvalidHeaderValues = inr header /\
    NoDup (children header) /\
    2 <= List.length (children header) <= 6 /\
    classList header = [].
Proof.
  eexists. split; [reflexivity|].
  apply (@header_titles_are_distinct InvalidHeaderValues). reflexivity.
Defined.
